(** * A shallow embedding of the todo service and its controller

    The embedding follows [src/todo/todo.service.ts], the controller, the
    entity and the two DTO classes.

    - A [Todo] object is a record.  The objects held by the service are
      only ever reached through the service's array, so the in-place
      mutation of [update] is the replacement of the array slot that
      [Array.prototype.find] returned.
    - [idCounter] starts at 1 and is only ever incremented, so ids are
      integers.  They are modelled in [Z]: the embedding covers the range
      in which a JavaScript number holds every integer exactly (below
      2^53), where [++] adds one.
    - A [Date] is its time value (milliseconds since the epoch).  Every
      [new Date()] reads the clock; the clock is an oracle [clock : nat -> Z]
      giving the value of the n-th reading since the process started.
    - The TypeScript type [number] of the [id] arguments also contains
      values that are not integers; they are kept apart in [number].
    - The request body of [update] is typed by [UpdateTodoDto]: it carries
      [title], [isCompleted], both or neither, and nothing else. *)

From Stdlib Require Import ZArith Lia Sorted.
From stdpp Require Import base option list sorting gmap strings.

Local Open Scope Z_scope.

(** ** Entity and DTOs *)

(** A [Date] is its time value, in milliseconds since the epoch. *)
Abbreviation Date := Z (only parsing).

Module Todo.
Record t := mk {
  id : Z;
  title : string;
  isCompleted : bool;
  createdAt : Date;
  updatedAt : Date
}.
End Todo.

Module CreateTodoDto.
Record t := mk { title : string }.
End CreateTodoDto.

(** An optional property that is absent is [None]. *)
Module UpdateTodoDto.
Record t := mk { title : option string; isCompleted : option bool }.
End UpdateTodoDto.

(** ** Numbers reaching the service as ids

    [Int z] is an integral value, [NonInteger] any other finite value or an
    infinity, [NaN] the result of converting a string that is not a numeric
    literal. *)
Inductive number := Int (z : Z) | NonInteger | NaN.

(** [a === b] for a stored id [a]: stored ids are integers, so only an
    integral [b] can be equal to one. *)
Definition strict_eq (a : Z) (b : number) : bool :=
  match b with
  | Int z => a =? z
  | NonInteger | NaN => false
  end.

(** ** The state threaded through the calls *)

Record Store := mkStore { todos : list Todo.t; idCounter : Z }.

Record World := mkWorld { service : Store; reads : nat }.

Definition M (A : Type) : Type := World -> A * World.

#[global] Instance M_ret : MRet M := fun A a w => (a, w).
#[global] Instance M_bind : MBind M :=
  fun A B f m w => let '(a, w') := m w in f a w'.
#[global] Instance M_fmap : FMap M :=
  fun A B f m w => let '(a, w') := m w in (f a, w').

Definition get : M Store := fun w => (service w, w).
Definition put (s : Store) : M unit := fun w => (tt, mkWorld s (reads w)).

(** The service as constructed: [todos = []], [idCounter = 1]. *)
Definition init : World := mkWorld (mkStore [] 1) 0.

(** [Object.assign(todo, updateTodoDto, { updatedAt })]: the properties
    present in the DTO overwrite those of [todo], then [updatedAt] does. *)
Definition Object_assign (todo : Todo.t) (dto : UpdateTodoDto.t)
    (updatedAt : Date) : Todo.t :=
  Todo.mk (Todo.id todo)
    (default (Todo.title todo) (UpdateTodoDto.title dto))
    (default (Todo.isCompleted todo) (UpdateTodoDto.isCompleted dto))
    (Todo.createdAt todo)
    updatedAt.

(** Mutation of the object that [find p] returns: the first element
    satisfying [p] is replaced by its image, the array is otherwise kept. *)
Fixpoint mutate_found (p : Todo.t -> bool) (f : Todo.t -> Todo.t)
    (l : list Todo.t) : list Todo.t :=
  match l with
  | [] => []
  | x :: l' => if p x then f x :: l' else x :: mutate_found p f l'
  end.

Module TodoService.
Section WithClock.
Context (clock : nat -> Date).

Definition new_Date : M Date :=
  fun w => (clock (reads w), mkWorld (service w) (S (reads w))).

Definition create (createTodoDto : CreateTodoDto.t) : M Todo.t :=
  s ← get;
  put (mkStore (todos s) (idCounter s + 1));;
  createdAt ← new_Date;
  updatedAt ← new_Date;
  let todo :=
    Todo.mk (idCounter s) (CreateTodoDto.title createTodoDto) false
      createdAt updatedAt in
  s' ← get;
  put (mkStore (todos s' ++ [todo]) (idCounter s'));;
  mret todo.

Definition findAll : M (list Todo.t) :=
  s ← get; mret (todos s).

Definition findOne (id : number) : M (option Todo.t) :=
  s ← get;
  mret (List.find (fun todo => strict_eq (Todo.id todo) id) (todos s)).

Definition update (id : number) (updateTodoDto : UpdateTodoDto.t)
    : M (option Todo.t) :=
  todo ← findOne id;
  match todo with
  | None => mret None
  | Some todo =>
      now ← new_Date;
      s ← get;
      put (mkStore
             (mutate_found (fun todo => strict_eq (Todo.id todo) id)
                (fun todo => Object_assign todo updateTodoDto now) (todos s))
             (idCounter s));;
      mret (Some (Object_assign todo updateTodoDto now))
  end.

Definition remove (id : number) : M bool :=
  s ← get;
  let initialLength := length (todos s) in
  put (mkStore
         (List.filter (fun todo => negb (strict_eq (Todo.id todo) id))
            (todos s))
         (idCounter s));;
  s' ← get;
  mret (negb (length (todos s') =? initialLength)%nat).

End WithClock.
End TodoService.

(** ** Sequences of service calls *)

Inductive Op :=
| Create (dto : CreateTodoDto.t)
| FindAll
| FindOne (id : number)
| Update (id : number) (dto : UpdateTodoDto.t)
| Remove (id : number).

Inductive Result :=
| Created (todo : Todo.t)
| Listed (l : list Todo.t)
| Found (o : option Todo.t)
| Updated (o : option Todo.t)
| Removed (b : bool).

Section Runs.
Context (clock : nat -> Date).

Definition exec (op : Op) : M Result :=
  match op with
  | Create dto => Created <$> TodoService.create clock dto
  | FindAll => Listed <$> TodoService.findAll
  | FindOne id => Found <$> TodoService.findOne id
  | Update id dto => Updated <$> TodoService.update clock id dto
  | Remove id => Removed <$> TodoService.remove id
  end.

Fixpoint run (ops : list Op) : M (list Result) :=
  match ops with
  | [] => mret []
  | op :: ops' => r ← exec op; rs ← run ops'; mret (r :: rs)
  end.

End Runs.

(** ** The controller *)

Inductive HttpException := NotFoundException (message : string).

(** The framework answers a [NotFoundException] with status 404. *)
Definition getStatus (e : HttpException) : Z :=
  match e with NotFoundException _ => 404 end.

Inductive Outcome (A : Type) :=
| Return (a : A)
| Throw (e : HttpException).
Arguments Return {A} a.
Arguments Throw {A} e.

Record Body := mkBody { message : string }.

Module TodoController.
Section WithEnv.
Context (clock : nat -> Date).
(** Unary plus on the path parameter: the language's string-to-number
    conversion. *)
Context (ToNumber : string -> number).

Definition not_found (id : string) : HttpException :=
  NotFoundException ("Todo with ID " +:+ id +:+ " not found").

Definition findAll : M (list Todo.t) := TodoService.findAll.

Definition findOne (id : string) : M (Outcome Todo.t) :=
  todo ← TodoService.findOne (ToNumber id);
  match todo with
  | None => mret (Throw (not_found id))
  | Some todo => mret (Return todo)
  end.

Definition create (createTodoDto : CreateTodoDto.t) : M Todo.t :=
  TodoService.create clock createTodoDto.

Definition update (id : string) (updateTodoDto : UpdateTodoDto.t)
    : M (Outcome Todo.t) :=
  todo ← TodoService.update clock (ToNumber id) updateTodoDto;
  match todo with
  | None => mret (Throw (not_found id))
  | Some todo => mret (Return todo)
  end.

Definition remove (id : string) : M (Outcome Body) :=
  isRemoved ← TodoService.remove (ToNumber id);
  if negb isRemoved then mret (Throw (not_found id))
  else mret (Return (mkBody "Todo deleted successfully")).

End WithEnv.
End TodoController.

(** ** Observations on a run *)

(** The ids handed out by the [create] calls of a run, in call order. *)
Definition created_ids (rs : list Result) : list Z :=
  omap (fun r => match r with Created t => Some (Todo.id t) | _ => None end) rs.

(** The records handed out by the [create] calls of a run, in call order. *)
Definition created (rs : list Result) : list Todo.t :=
  omap (fun r => match r with Created t => Some t | _ => None end) rs.

Definition is_remove (op : Op) : bool :=
  match op with Remove _ => true | _ => false end.

Definition is_create (op : Op) : bool :=
  match op with Create _ => true | _ => false end.

Definition ids (s : Store) : list Z := Todo.id <$> todos s.

(** The callback [todo => todo.id === id] of [findOne]. *)
Definition matches (id : number) (todo : Todo.t) : bool :=
  strict_eq (Todo.id todo) id.

(** Well-formed stores: ids grow along the array and stay below the
    counter. *)
Definition wf (s : Store) : Prop :=
  0 < idCounter s /\
  StronglySorted Z.lt (ids s) /\
  Forall (fun i => 0 < i < idCounter s) (ids s).

(** The record most recently returned by [create] or by a successful
    [update], per id. *)
Definition note (m : gmap Z Todo.t) (r : Result) : gmap Z Todo.t :=
  match r with
  | Created t | Updated (Some t) => <[Todo.id t := t]> m
  | _ => m
  end.

Definition last_produced (rs : list Result) : gmap Z Todo.t :=
  foldl note ∅ rs.

(** Every stored record is the one last produced for its id. *)
Definition known (m : gmap Z Todo.t) (s : Store) : Prop :=
  forall t, t ∈ todos s -> m !! Todo.id t = Some t.

(** The titles handed to the service by a sequence of calls. *)
Definition supplied_titles (ops : list Op) : list string :=
  ops ≫= fun op =>
    match op with
    | Create dto => [CreateTodoDto.title dto]
    | Update _ dto => option_list (UpdateTodoDto.title dto)
    | _ => []
    end.

Definition titled (s : Store) : Prop :=
  Forall (fun t => Todo.title t <> "") (todos s).

Definition stamped (s : Store) : Prop :=
  Forall (fun t => Todo.createdAt t <= Todo.updatedAt t) (todos s).

(** Successive readings of the clock never go back. *)
Definition monotone (clock : nat -> Date) : Prop :=
  forall i j, (i <= j)%nat -> clock i <= clock j.

(** A conversion used to exercise the controller on concrete requests.  It
    reads a string of decimal digits as its value (the empty string as 0)
    and gives [NaN] for a string holding any other character; the conversion
    of the language reads further literals, which the examples do not use. *)
Definition digit (a : Ascii.ascii) : option Z :=
  let n := Z.of_N (Ascii.N_of_ascii a) in
  if (48 <=? n) && (n <=? 57) then Some (n - 48) else None.

Fixpoint digits (acc : Z) (s : string) : option Z :=
  match s with
  | EmptyString => Some acc
  | String a s' =>
      match digit a with
      | Some d => digits (10 * acc + d) s'
      | None => None
      end
  end.

Definition ToNumber0 (s : string) : number :=
  match digits 0 s with Some z => Int z | None => NaN end.

(** Every stored record was created at a reading already taken. *)
Definition dated (clock : nat -> Date) (w : World) : Prop :=
  Forall (fun t => Todo.createdAt t <= Todo.updatedAt t /\
                   Todo.createdAt t <= clock (reads w))
    (todos (service w)).

(** ** A concrete clock and a concrete store, used to instantiate the
    statements that carry a hypothesis *)

Definition clock0 (n : nat) : Date := 1700000000000 + Z.of_nat n.

Definition w0 : World :=
  (run clock0 [Create (CreateTodoDto.mk "buy milk");
               Create (CreateTodoDto.mk "walk dog")] init).2.

(** A clock that loses a millisecond at every reading, and a clock that is
    set back by some years after its second reading. *)
Definition clock_back (n : nat) : Date := 1700000000000 - Z.of_nat n.

Definition clock_reset (n : nat) : Date :=
  if (n <? 2)%nat then 1700000000000 + Z.of_nat n else 1600000000000.

(** ** Further observations *)

(** The number of [create] calls in a sequence of calls. *)
Definition creations (ops : list Op) : nat :=
  length (List.filter is_create ops).

Definition is_removed (r : Result) : bool :=
  match r with Removed true => true | _ => false end.

(** The number of [remove] calls of a run that returned [true]. *)
Definition removals (rs : list Result) : nat :=
  length (List.filter is_removed rs).

(** A call that can mark a record as completed: an update whose patch
    carries [isCompleted: true]. *)
Definition completes (op : Op) : bool :=
  match op with
  | Update _ dto =>
      match UpdateTodoDto.isCompleted dto with
      | Some true => true
      | _ => false
      end
  | _ => false
  end.

Definition is_integer (id : number) : bool :=
  match id with Int _ => true | _ => false end.

(** No stamp of a stored record is later than the next reading of the
    clock, and the creation stamps grow along the array. *)
Definition timed (clock : nat -> Date) (w : World) : Prop :=
  Forall (fun t => Todo.createdAt t <= clock (reads w) /\
                   Todo.updatedAt t <= clock (reads w))
    (todos (service w)) /\
  StronglySorted Z.le (Todo.createdAt <$> todos (service w)).

(** * Properties *)

(** ** What each call computes *)

Section Calls.
Context (clock : nat -> Date).

Lemma create_eq dto w :
  TodoService.create clock dto w =
  let todo := Todo.mk (idCounter (service w)) (CreateTodoDto.title dto) false
                (clock (reads w)) (clock (S (reads w))) in
  (todo, mkWorld (mkStore (todos (service w) ++ [todo])
                    (idCounter (service w) + 1))
           (S (S (reads w)))).
Proof. reflexivity. Qed.

Lemma findAll_eq w : TodoService.findAll w = (todos (service w), w).
Proof. reflexivity. Qed.

Lemma findOne_eq id w :
  TodoService.findOne id w = (List.find (matches id) (todos (service w)), w).
Proof. reflexivity. Qed.

Lemma update_eq id dto w :
  TodoService.update clock id dto w =
  match List.find (matches id) (todos (service w)) with
  | None => (None, w)
  | Some todo =>
      (Some (Object_assign todo dto (clock (reads w))),
       mkWorld (mkStore
                  (mutate_found (matches id)
                     (fun t => Object_assign t dto (clock (reads w)))
                     (todos (service w)))
                  (idCounter (service w)))
         (S (reads w)))
  end.
Proof.
  unfold TodoService.update, mbind, M_bind. rewrite findOne_eq.
  fold (matches id). destruct (List.find _ _); reflexivity.
Qed.

Lemma remove_eq id w :
  TodoService.remove id w =
  let kept := List.filter (fun t => negb (matches id t)) (todos (service w)) in
  (negb (length kept =? length (todos (service w)))%nat,
   mkWorld (mkStore kept (idCounter (service w))) (reads w)).
Proof. reflexivity. Qed.

End Calls.

(** Case analysis on a call, with each service method replaced by what it
    computes. *)
Ltac step op :=
  destruct op as [dto| |id|id dto|id]; unfold exec, fmap, M_fmap;
  rewrite ?create_eq, ?findAll_eq, ?findOne_eq, ?update_eq, ?remove_eq;
  try match goal with
      | |- context [List.find ?p ?l] => destruct (List.find p l) eqn:?
      end; cbn [fst snd service todos idCounter reads].

(** ** Lists: [find], [filter] and the mutation of the found element *)

Section ListFacts.
Context (p : Todo.t -> bool).

Lemma find_None_Forall l :
  List.find p l = None <-> Forall (fun x => p x = false) l.
Proof.
  induction l as [|x l IH]; simpl.
  - split; [constructor | reflexivity].
  - destruct (p x) eqn:E.
    + split; [discriminate | intros H; inversion H; congruence].
    + rewrite IH. split; [by constructor | by inversion 1].
Qed.

Lemma find_Some_split l t :
  List.find p l = Some t ->
  exists l1 l2, l = l1 ++ t :: l2 /\ Forall (fun x => p x = false) l1 /\
                p t = true.
Proof.
  induction l as [|x l IH]; simpl; [discriminate|].
  destruct (p x) eqn:E.
  - intros [= ->]. by exists [], l.
  - intros (l1 & l2 & -> & H1 & H2)%IH.
    exists (x :: l1), l2. repeat split; [|done]. by constructor.
Qed.

Lemma mutate_found_split f l1 t l2 :
  Forall (fun x => p x = false) l1 -> p t = true ->
  mutate_found p f (l1 ++ t :: l2) = l1 ++ f t :: l2.
Proof.
  induction 1 as [|x l1 Hx _ IH]; intros Ht; simpl.
  - by rewrite Ht.
  - by rewrite Hx, IH.
Qed.

Lemma filter_negb_id l :
  Forall (fun x => p x = false) l -> List.filter (fun x => negb (p x)) l = l.
Proof.
  induction 1 as [|x l Hx _ IH]; simpl; [done|]. by rewrite Hx, IH.
Qed.

Lemma find_filter_negb l :
  List.find p (List.filter (fun x => negb (p x)) l) = None.
Proof.
  induction l as [|x l IH]; simpl; [done|].
  destruct (p x) eqn:E; simpl; [done|]. by rewrite E.
Qed.

End ListFacts.

Lemma bool_filter_sublist (q : Todo.t -> bool) l :
  List.filter q l `sublist_of` l.
Proof.
  induction l as [|x l IH]; simpl; [constructor|].
  destruct (q x); by constructor.
Qed.

Lemma StronglySorted_sublist {A} (R : relation A) (l1 l2 : list A) :
  l1 `sublist_of` l2 -> StronglySorted R l2 -> StronglySorted R l1.
Proof.
  intros Hsub. induction Hsub as [|x l1 l2 Hs IH|x l1 l2 Hs IH].
  - done.
  - rewrite !StronglySorted_cons. intros [Hx Hl]. split; [|by apply IH].
    apply Forall_forall. intros y Hy. eapply Forall_forall; [exact Hx|].
    by eapply elem_of_sublist.
  - rewrite StronglySorted_cons. intros [_ Hl]. by apply IH.
Qed.

Lemma Forall_sublist {A} (P : A -> Prop) (l1 l2 : list A) :
  l1 `sublist_of` l2 -> Forall P l2 -> Forall P l1.
Proof.
  rewrite !Forall_forall. intros Hsub H x Hx.
  apply H. by eapply elem_of_sublist.
Qed.

Lemma mutate_found_ids (p : Todo.t -> bool) f l :
  (forall t, Todo.id (f t) = Todo.id t) ->
  Todo.id <$> mutate_found p f l = Todo.id <$> l.
Proof.
  intros Hf. induction l as [|x l IH]; [done|]. cbn [mutate_found].
  destruct (p x); rewrite !fmap_cons; [by rewrite Hf|by rewrite IH].
Qed.

(** ** Effect of one call on the counter and on well-formedness *)

Section Steps.
Context (clock : nat -> Date).

Lemma exec_counter op w :
  idCounter (service (exec clock op w).2) =
  idCounter (service w) + (if is_create op then 1 else 0).
Proof. step op; simpl; lia. Qed.

Lemma exec_created op w :
  created_ids [(exec clock op w).1] =
  if is_create op then [idCounter (service w)] else [].
Proof. step op; reflexivity. Qed.

Lemma exec_wf op w : wf (service w) -> wf (service (exec clock op w).2).
Proof.
  intros (Hc & Hs & Hb). step op; try done; unfold wf, ids in *; simpl.
  - rewrite fmap_app. simpl. split_and!; [lia| |].
    + apply StronglySorted_app. split_and!; [|done|repeat constructor].
      intros i j Hi ->%list_elem_of_singleton.
      eapply Forall_forall in Hb; [|done]. lia.
    + apply Forall_app. split; [|repeat constructor; lia].
      eapply Forall_impl; [done|]. simpl. lia.
  - by rewrite mutate_found_ids.
  - pose proof (bool_filter_sublist (fun t => negb (matches id t))
                  (todos (service w))) as Hsub.
    apply (fmap_sublist Todo.id) in Hsub.
    split_and!; [done|by eapply StronglySorted_sublist|].
    by eapply Forall_sublist.
Qed.

Lemma run_cons op ops w :
  run clock (op :: ops) w =
  let w1 := (exec clock op w).2 in
  ((exec clock op w).1 :: (run clock ops w1).1, (run clock ops w1).2).
Proof.
  simpl. unfold mbind, M_bind.
  destruct (exec clock op w) as [r w1]. simpl.
  by destruct (run clock ops w1).
Qed.

Lemma created_ids_cons r rs :
  created_ids (r :: rs) = created_ids [r] ++ created_ids rs.
Proof. unfold created_ids. simpl. by destruct r. Qed.

(** Ids handed out from [w] on lie between the counter of [w] and the final
    counter, and they increase. *)
Lemma run_created ops : forall w,
  let c := idCounter (service w) in
  let c' := idCounter (service (run clock ops w).2) in
  c <= c' /\
  Forall (fun i => c <= i < c') (created_ids (run clock ops w).1) /\
  StronglySorted Z.lt (created_ids (run clock ops w).1).
Proof.
  induction ops as [|op ops IH]; intros w.
  - simpl. split_and!; [lia|constructor|constructor].
  - rewrite run_cons. cbn [fst snd]. cbv zeta.
    specialize (IH (exec clock op w).2). cbv zeta in IH.
    rewrite exec_counter in IH. destruct IH as (IH1 & IH2 & IH3).
    rewrite created_ids_cons, exec_created.
    destruct (is_create op); simpl.
    + split_and!; [lia| |].
      * constructor; [lia|]. eapply Forall_impl; [done|]. simpl. lia.
      * constructor; [done|]. eapply Forall_impl; [done|]. simpl. lia.
    + rewrite Z.add_0_r in *. done.
Qed.

Lemma run_wf ops : forall w,
  wf (service w) -> wf (service (run clock ops w).2).
Proof.
  induction ops as [|op ops IH]; intros w Hw; [done|].
  rewrite run_cons. cbn [snd]. cbv zeta. by apply IH, exec_wf.
Qed.

Lemma init_wf : wf (service init).
Proof. unfold wf, ids. simpl. split_and!; [lia|constructor|constructor]. Qed.

End Steps.

Lemma StronglySorted_lt_NoDup (l : list Z) : StronglySorted Z.lt l -> NoDup l.
Proof.
  induction 1 as [|x l _ IH Hx]; constructor; [|done].
  intros Hin. eapply Forall_forall in Hx; [|done]. lia.
Qed.

Lemma filter_negb_idemp (p : Todo.t -> bool) l :
  List.filter (fun x => negb (p x)) (List.filter (fun x => negb (p x)) l) =
  List.filter (fun x => negb (p x)) l.
Proof. apply filter_negb_id, find_None_Forall, find_filter_negb. Qed.

(** In a well-formed store the record found for [id] is the only one that
    matches [id]. *)
Lemma sorted_split_nomatch id l1 t l2 :
  StronglySorted Z.lt (Todo.id <$> (l1 ++ t :: l2)) ->
  matches id t = true ->
  Forall (fun x => matches id x = false) l1 /\
  Forall (fun x => matches id x = false) l2.
Proof.
  rewrite fmap_app, fmap_cons. intros Hs Ht.
  destruct id as [z| |]; try discriminate.
  unfold matches in *. simpl in *. apply Z.eqb_eq in Ht.
  split; apply Forall_forall; intros x Hx; apply Z.eqb_neq.
  - assert (Todo.id x < Todo.id t); [|lia].
    eapply StronglySorted_app_1_elem_of; [done| |left].
    by apply list_elem_of_fmap_2.
  - apply StronglySorted_app_1_r, StronglySorted_cons in Hs as [Hs _].
    assert (Todo.id t < Todo.id x); [|lia].
    eapply Forall_forall in Hs; [done|]. by apply list_elem_of_fmap_2.
Qed.

Lemma filter_split_unique id l1 t l2 :
  StronglySorted Z.lt (Todo.id <$> (l1 ++ t :: l2)) ->
  matches id t = true ->
  List.filter (fun x => negb (matches id x)) (l1 ++ t :: l2) = l1 ++ l2.
Proof.
  intros Hs Ht. destruct (sorted_split_nomatch _ _ _ _ Hs Ht) as [H1 H2].
  rewrite List.filter_app. simpl. rewrite Ht. simpl.
  by rewrite !filter_negb_id.
Qed.

Section RunFacts.
Context (clock : nat -> Date).

Lemma reachable_wf ops : wf (service (run clock ops init).2).
Proof. apply run_wf, init_wf. Qed.

Lemma created_cons r rs : created (r :: rs) = created [r] ++ created rs.
Proof. unfold created. simpl. by destruct r. Qed.

Lemma created_ids_created rs : created_ids rs = Todo.id <$> created rs.
Proof.
  induction rs as [|r rs IH]; [done|].
  rewrite created_ids_cons, created_cons, fmap_app, IH. by destruct r.
Qed.

Lemma created_ids_length ops : forall w,
  length (created_ids (run clock ops w).1) = length (List.filter is_create ops).
Proof.
  induction ops as [|op ops IH]; intros w; [done|].
  rewrite run_cons. cbn [fst]. cbv zeta.
  rewrite created_ids_cons, length_app, exec_created, IH. simpl.
  by destruct (is_create op).
Qed.

Lemma filter_creates_length (dtos : list CreateTodoDto.t) :
  length (List.filter is_create (Create <$> dtos)) = length dtos.
Proof.
  induction dtos as [|d dtos IH]; [done|].
  rewrite fmap_cons. cbn [List.filter is_create length]. by rewrite IH.
Qed.

(** A run of creates appends the records it returns. *)
Lemma run_creates dtos : forall w,
  todos (service (run clock (Create <$> dtos) w).2) =
  todos (service w) ++ created (run clock (Create <$> dtos) w).1.
Proof.
  induction dtos as [|dto dtos IH]; intros w.
  - simpl. by rewrite app_nil_r.
  - rewrite fmap_cons, run_cons. cbn [fst snd]. cbv zeta.
    rewrite created_cons, IH. unfold exec, fmap at 1 4, M_fmap.
    rewrite create_eq. simpl. by rewrite <- app_assoc.
Qed.

(** One call other than [remove] keeps the ids and appends the new one. *)
Lemma exec_ids_no_remove op w :
  is_remove op = false ->
  ids (service (exec clock op w).2) =
  ids (service w) ++ created_ids [(exec clock op w).1].
Proof.
  intros Hop. unfold ids. step op; try discriminate;
    rewrite ?app_nil_r; try done.
  - by rewrite fmap_app.
  - by rewrite mutate_found_ids.
Qed.

Lemma exec_ids_sublist op w :
  ids (service (exec clock op w).2) `sublist_of`
  ids (service w) ++ created_ids [(exec clock op w).1].
Proof.
  destruct (is_remove op) eqn:Hop.
  - destruct op; try discriminate. unfold exec, fmap, M_fmap.
    rewrite remove_eq. cbn [fst snd service todos]. unfold ids.
    rewrite app_nil_r. apply fmap_sublist, bool_filter_sublist.
  - by rewrite exec_ids_no_remove.
Qed.

Lemma run_ids_no_remove ops : forall w,
  forallb (fun op => negb (is_remove op)) ops = true ->
  ids (service (run clock ops w).2) =
  ids (service w) ++ created_ids (run clock ops w).1.
Proof.
  induction ops as [|op ops IH]; intros w Hops.
  - simpl. by rewrite app_nil_r.
  - simpl in Hops. apply andb_prop in Hops as [Hop Hops].
    apply negb_true_iff in Hop.
    rewrite run_cons. cbn [fst snd]. cbv zeta.
    rewrite created_ids_cons, IH, exec_ids_no_remove by done.
    by rewrite <- app_assoc.
Qed.

Lemma run_ids_sublist ops : forall w,
  ids (service (run clock ops w).2) `sublist_of`
  ids (service w) ++ created_ids (run clock ops w).1.
Proof.
  induction ops as [|op ops IH]; intros w.
  - simpl. by rewrite app_nil_r.
  - rewrite run_cons. cbn [fst snd]. cbv zeta.
    rewrite created_ids_cons, app_assoc.
    etrans; [apply IH|]. apply sublist_app; [apply exec_ids_sublist|done].
Qed.

End RunFacts.

Section Known.
Context (clock : nat -> Date).

Lemma matches_same_id id t x :
  matches id t = true -> matches id x = false -> Todo.id x <> Todo.id t.
Proof. unfold matches. intros Ht Hx E. rewrite E in Hx. congruence. Qed.

Lemma exec_known op w m :
  wf (service w) -> known m (service w) ->
  known (note m (exec clock op w).1) (service (exec clock op w).2).
Proof.
  intros (Hc & Hs & Hb) Hk.
  destruct op as [dto| |id|id dto|id]; unfold exec, fmap, M_fmap;
    rewrite ?create_eq, ?findAll_eq, ?findOne_eq, ?update_eq, ?remove_eq;
    cbv zeta; cbn [fst snd service todos note]; try done.
  - intros t [Ht| ->%list_elem_of_singleton]%elem_of_app; cbn [Todo.id].
    + rewrite lookup_insert_ne; [by apply Hk|].
      assert (Todo.id t ∈ ids (service w)) as Hin
        by by apply list_elem_of_fmap_2.
      eapply Forall_forall in Hb; [|exact Hin]. lia.
    + by rewrite lookup_insert_eq.
  - destruct (List.find _ _) as [t0|] eqn:Hfind; [|done].
    cbn [fst snd service todos note].
    destruct (find_Some_split _ _ _ Hfind) as (l1 & l2 & Hl & _ & Ht0).
    unfold ids in Hs. rewrite Hl in Hs.
    destruct (sorted_split_nomatch _ _ _ _ Hs Ht0) as [H1 H2].
    rewrite Hl, mutate_found_split by done.
    assert (forall x, x ∈ l1 ++ l2 ->
              Todo.id x <> Todo.id t0 /\ m !! Todo.id x = Some x) as Hother.
    { intros x Hx. split.
      - apply (matches_same_id id); [done|].
        apply elem_of_app in Hx as [Hx|Hx].
        + by apply (proj1 (Forall_forall _ _) H1).
        + by apply (proj1 (Forall_forall _ _) H2).
      - apply Hk. rewrite Hl. apply elem_of_app.
        apply elem_of_app in Hx as [Hx|Hx]; [by left|right; by right]. }
    intros t [Ht|[->|Ht]%elem_of_cons]%elem_of_app; cbn [Object_assign Todo.id].
    + destruct (Hother t) as [Hne Hm]; [apply elem_of_app; by left|].
      by rewrite lookup_insert_ne.
    + by rewrite lookup_insert_eq.
    + destruct (Hother t) as [Hne Hm]; [apply elem_of_app; by right|].
      by rewrite lookup_insert_ne.
  - intros t Ht. apply Hk. eapply elem_of_sublist; [done|].
    apply bool_filter_sublist.
Qed.

Lemma run_known ops : forall w m,
  wf (service w) -> known m (service w) ->
  known (foldl note m (run clock ops w).1) (service (run clock ops w).2).
Proof.
  induction ops as [|op ops IH]; intros w m Hw Hk; [done|].
  rewrite run_cons. cbn [fst snd foldl]. cbv zeta.
  apply IH; [by apply exec_wf|by apply exec_known].
Qed.

End Known.

Lemma mutate_found_Forall (P Q : Todo.t -> Prop) p f l :
  Forall P l -> (forall t, P t -> Q t) -> (forall t, P t -> Q (f t)) ->
  Forall Q (mutate_found p f l).
Proof.
  intros Hl Hk Hf. induction Hl as [|x l Hx Hl IH]; simpl; [done|].
  destruct (p x); constructor; auto. by eapply Forall_impl.
Qed.

Lemma supplied_titles_cons op ops :
  supplied_titles (op :: ops) = supplied_titles [op] ++ supplied_titles ops.
Proof. unfold supplied_titles. simpl. by rewrite app_nil_r. Qed.

Section Titles.
Context (clock : nat -> Date).

Lemma exec_titled op w :
  Forall (fun s => s <> "") (supplied_titles [op]) ->
  titled (service w) -> titled (service (exec clock op w).2).
Proof.
  unfold titled. intros Hop Hw.
  destruct op as [dto| |id|id dto|id]; unfold exec, fmap, M_fmap;
    rewrite ?create_eq, ?findAll_eq, ?findOne_eq, ?update_eq, ?remove_eq;
    cbv zeta; cbn [fst snd service todos]; try done.
  - apply Forall_app. split; [done|]. repeat constructor.
    cbn [Todo.title]. by apply Forall_inv in Hop.
  - destruct (List.find _ _) as [found|]; [|done]. cbn [snd service todos].
    eapply mutate_found_Forall; [done|done|]. intros x Hx.
    destruct dto as [[title|] completed]; cbn in *; [|done].
    by apply Forall_inv in Hop.
  - eapply Forall_sublist; [apply bool_filter_sublist|done].
Qed.

Lemma run_titled ops : forall w,
  Forall (fun s => s <> "") (supplied_titles ops) ->
  titled (service w) -> titled (service (run clock ops w).2).
Proof.
  induction ops as [|op ops IH]; intros w Hops Hw; [done|].
  rewrite run_cons. cbn [snd]. cbv zeta.
  rewrite supplied_titles_cons in Hops.
  apply Forall_app in Hops as [Hop Hops].
  apply IH; [done|]. by apply exec_titled.
Qed.

End Titles.

Section Stamps.
Context (clock : nat -> Date) (Hclock : monotone clock).

Lemma exec_dated op w : dated clock w -> dated clock (exec clock op w).2.
Proof.
  unfold dated. intros Hw.
  destruct op as [dto| |id|id dto|id]; unfold exec, fmap, M_fmap;
    rewrite ?create_eq, ?findAll_eq, ?findOne_eq, ?update_eq, ?remove_eq;
    cbv zeta; cbn [fst snd service todos reads]; try done.
  - pose proof (Hclock (reads w) (S (reads w)) ltac:(lia)) as H1.
    pose proof (Hclock (S (reads w)) (S (S (reads w))) ltac:(lia)) as H2.
    revert Hw H1 H2.
    generalize (clock (reads w)) (clock (S (reads w)))
      (clock (S (S (reads w)))).
    intros a b c Hw H1 H2. apply Forall_app. split.
    + eapply Forall_impl; [done|]. simpl. lia.
    + repeat constructor; cbn [Todo.createdAt Todo.updatedAt]; lia.
  - destruct (List.find _ _) as [found|]; [|done].
    cbn [snd service todos reads].
    pose proof (Hclock (reads w) (S (reads w)) ltac:(lia)) as H1.
    revert Hw H1. generalize (clock (reads w)) (clock (S (reads w))).
    intros a b Hw H1. eapply mutate_found_Forall; [done| |].
    + simpl. lia.
    + intros x. cbn [Object_assign Todo.createdAt Todo.updatedAt]. lia.
  - eapply Forall_sublist; [apply bool_filter_sublist|done].
Qed.

Lemma run_dated ops : forall w,
  dated clock w -> dated clock (run clock ops w).2.
Proof.
  induction ops as [|op ops IH]; intros w Hw; [done|].
  rewrite run_cons. cbn [snd]. cbv zeta. by apply IH, exec_dated.
Qed.

End Stamps.

Lemma mutate_found_createdAt (p : Todo.t -> bool) f l :
  (forall t, Todo.createdAt (f t) = Todo.createdAt t) ->
  Todo.createdAt <$> mutate_found p f l = Todo.createdAt <$> l.
Proof.
  intros Hf. induction l as [|x l IH]; [done|]. cbn [mutate_found].
  destruct (p x); rewrite !fmap_cons; [by rewrite Hf|by rewrite IH].
Qed.

(** ** Which records a call can put into the array *)

Lemma elem_of_mutate_found (p : Todo.t -> bool) f l x :
  x ∈ mutate_found p f l ->
  x ∈ l \/ exists t, List.find p l = Some t /\ x = f t.
Proof.
  induction l as [|y l IH]; simpl; [by left|].
  destruct (p y) eqn:E.
  - intros [->|Hx]%elem_of_cons; [right; by exists y|left; by right].
  - intros [->|Hx]%elem_of_cons; [left; by left|].
    destruct (IH Hx) as [Hl|Hr]; [left; by right|by right].
Qed.

(** A record of the array after a call was there before the call, or is the
    record the call returned from [create] or from [update]. *)
Lemma exec_records (clock : nat -> Date) op w t :
  t ∈ todos (service (exec clock op w).2) ->
  t ∈ todos (service w) \/
  (exec clock op w).1 = Created t \/
  (exec clock op w).1 = Updated (Some t).
Proof.
  destruct op as [dto| |id|id dto|id]; unfold exec, fmap, M_fmap;
    rewrite ?create_eq, ?findAll_eq, ?findOne_eq, ?update_eq, ?remove_eq;
    cbv zeta; cbn [fst snd service todos]; try by left.
  - intros [Ht| ->%list_elem_of_singleton]%elem_of_app; [by left|].
    right. by left.
  - destruct (List.find (matches id) (todos (service w))) as [found|] eqn:Hfind;
      cbn [fst snd service todos]; [|by left].
    intros [Ht|(t0 & Ht0 & ->)]%elem_of_mutate_found; [by left|].
    rewrite Hfind in Ht0. injection Ht0 as <-. right. by right.
  - intros Ht. left. eapply elem_of_sublist; [done|].
    apply bool_filter_sublist.
Qed.

(** ** A run on a fresh service

    Two creates, a listing, an update of the first record, its removal, two
    lookups and an update of an id that was never handed out. *)
Example scenario :
  (run clock0
     [Create (CreateTodoDto.mk "buy milk");
      Create (CreateTodoDto.mk "walk dog");
      FindAll;
      Update (Int 1) (UpdateTodoDto.mk None (Some true));
      Remove (Int 1);
      FindOne (Int 1);
      FindOne (Int 2);
      Update (Int 99) (UpdateTodoDto.mk (Some "x") None)] init).1 =
  let milk := Todo.mk 1 "buy milk" false 1700000000000 1700000000001 in
  let dog := Todo.mk 2 "walk dog" false 1700000000002 1700000000003 in
  [Created milk;
   Created dog;
   Listed [milk; dog];
   Updated (Some (Todo.mk 1 "buy milk" true 1700000000000 1700000000004));
   Removed true;
   Found None;
   Found (Some dog);
   Updated None].
Proof. reflexivity. Qed.

(** * The claims *)

(** C1: along every sequence of service calls on a freshly constructed
    service, in any interleaving of create, update, remove and the reads, the
    ids returned by the successive create calls are strictly increasing; in
    particular no id is handed out twice, whether or not the record that
    carried it has been removed in between. *)
Theorem create_ids_strictly_increasing (clock : nat -> Date) (ops : list Op) :
  StronglySorted Z.lt (created_ids (run clock ops init).1) /\
  NoDup (created_ids (run clock ops init).1).
Proof.
  destruct (run_created clock ops init) as (_ & _ & Hs).
  split; [done|by apply StronglySorted_lt_NoDup].
Qed.

(** C2: when [findOne id] finds the record [todo], [update id dto] rewrites
    that one array slot and nothing else: the new record keeps [id] and
    [createdAt], takes [title] and [isCompleted] from the patch where it
    carries them and from [todo] where it does not, and has [updatedAt] set
    to the clock reading taken by the call; the records before and after the
    slot and the id counter are unchanged, and the new record is returned.
    With the empty patch [title] and [isCompleted] are those of [todo] and
    [updatedAt] is still refreshed. *)
Theorem update_changes_only_patched_fields
    (clock : nat -> Date) (id : number) (dto : UpdateTodoDto.t)
    (w : World) (todo : Todo.t) :
  (TodoService.findOne id w).1 = Some todo ->
  let now := (TodoService.new_Date clock w).1 in
  let todo' :=
    Todo.mk (Todo.id todo)
      (match UpdateTodoDto.title dto with
       | Some x => x | None => Todo.title todo end)
      (match UpdateTodoDto.isCompleted dto with
       | Some b => b | None => Todo.isCompleted todo end)
      (Todo.createdAt todo) now in
  (exists l1 l2,
     todos (service w) = l1 ++ todo :: l2 /\
     Forall (fun t => matches id t = false) l1 /\
     TodoService.update clock id dto w =
       (Some todo',
        mkWorld (mkStore (l1 ++ todo' :: l2) (idCounter (service w)))
          (S (reads w)))) /\
  (dto = UpdateTodoDto.mk None None ->
   todo' = Todo.mk (Todo.id todo) (Todo.title todo) (Todo.isCompleted todo)
             (Todo.createdAt todo) now).
Proof.
  rewrite findOne_eq. cbn [fst]. intros Hfind. cbv zeta. split.
  - destruct (find_Some_split _ _ _ Hfind) as (l1 & l2 & Hl & H1 & Ht).
    exists l1, l2. split_and!; [done|done|].
    rewrite update_eq, Hfind, Hl.
    rewrite mutate_found_split by done.
    unfold Object_assign, TodoService.new_Date. cbn [fst].
    by destruct dto as [[?|] [?|]].
  - by intros ->.
Qed.

Lemma update_changes_only_patched_fields_witness :
  exists l1 l2,
    todos (service w0) =
      l1 ++ Todo.mk 1 "buy milk" false 1700000000000 1700000000001 :: l2 /\
    Forall (fun t => matches (Int 1) t = false) l1 /\
    TodoService.update clock0 (Int 1) (UpdateTodoDto.mk None (Some true)) w0 =
      (Some (Todo.mk 1 "buy milk" true 1700000000000 1700000000004),
       mkWorld
         (mkStore
            (l1 ++ Todo.mk 1 "buy milk" true 1700000000000 1700000000004 :: l2)
            (idCounter (service w0)))
         (S (reads w0))).
Proof.
  exact (proj1 (update_changes_only_patched_fields clock0 (Int 1)
                  (UpdateTodoDto.mk None (Some true)) w0
                  (Todo.mk 1 "buy milk" false 1700000000000 1700000000001)
                  eq_refl)).
Defined.

(** C3: on every state the service can reach, [findOne id] returns without
    changing anything, and what it returns is either a record of the array
    that carries this id, is the only one to do so, and is the record most
    recently returned by [create] or [update] for this id (with the
    [updatedAt] of that return), or the not-found value, in which case no
    record of the array carries the id. *)
Theorem findOne_returns_last_produced
    (clock : nat -> Date) (ops : list Op) (id : number) :
  let r := run clock ops init in
  exists o,
    TodoService.findOne id r.2 = (o, r.2) /\
    match o with
    | Some t =>
        t ∈ todos (service r.2) /\
        id = Int (Todo.id t) /\
        last_produced r.1 !! Todo.id t = Some t /\
        (forall t',
           t' ∈ todos (service r.2) -> matches id t' = true -> t' = t)
    | None => Forall (fun t => matches id t = false) (todos (service r.2))
    end.
Proof.
  cbv zeta. rewrite findOne_eq. eexists. split; [done|].
  pose proof (reachable_wf clock ops) as Hw.
  assert (known ∅ (service init)) as Hk0 by (by intros ? ?%elem_of_nil).
  pose proof (run_known clock ops init ∅ init_wf Hk0) as Hk.
  fold (last_produced (run clock ops init).1) in Hk.
  destruct (run clock ops init) as [rs w]. cbn [fst snd] in *.
  destruct (List.find _ _) as [t|] eqn:Hfind; [|by apply find_None_Forall].
  destruct (find_Some_split _ _ _ Hfind) as (l1 & l2 & Hl & _ & Ht).
  destruct Hw as (_ & Hs & _). unfold ids in Hs. rewrite Hl in *.
  destruct (sorted_split_nomatch _ _ _ _ Hs Ht) as [H1 H2].
  split_and!.
  - set_solver.
  - destruct id as [z| |]; try discriminate.
    unfold matches in Ht. simpl in Ht. apply Z.eqb_eq in Ht. by subst.
  - apply Hk. rewrite Hl. apply elem_of_app. right. left.
  - intros t' [Hin|[->|Hin]%elem_of_cons]%elem_of_app Ht'; [|done|].
    + eapply Forall_forall in H1; [|done]. congruence.
    + eapply Forall_forall in H2; [|done]. congruence.
Qed.

(** C4: after [n] creates and nothing else, [findAll] returns exactly the
    [n] records the creates returned, in call order; after any calls that
    include no remove, the ids listed are the ids created, in call order, and
    there are as many as there were creates.  [findAll] returns the whole
    array and changes nothing, and the array of a fresh service is empty.
    After any calls at all the ids listed are a subsequence of the ids
    created, in call order.  [update] keeps the ids at their positions and
    [remove] leaves a subsequence of the array. *)
Theorem findAll_insertion_order (clock : nat -> Date) :
  (forall dtos : list CreateTodoDto.t,
     let r := run clock (Create <$> dtos) init in
     (TodoService.findAll r.2).1 = created r.1 /\
     length (TodoService.findAll r.2).1 = length dtos) /\
  (forall ops : list Op,
     forallb (fun op => negb (is_remove op)) ops = true ->
     let r := run clock ops init in
     Todo.id <$> (TodoService.findAll r.2).1 = created_ids r.1 /\
     length (TodoService.findAll r.2).1 = length (List.filter is_create ops)) /\
  (forall w : World, TodoService.findAll w = (todos (service w), w)) /\
  (TodoService.findAll init).1 = [] /\
  (forall ops : list Op,
     let r := run clock ops init in
     Todo.id <$> (TodoService.findAll r.2).1 `sublist_of` created_ids r.1) /\
  (forall id dto w,
     Todo.id <$> todos (service (TodoService.update clock id dto w).2) =
     Todo.id <$> todos (service w)) /\
  (forall id w,
     todos (service (TodoService.remove id w).2) `sublist_of`
     todos (service w)).
Proof.
  split_and!.
  - intros dtos r. subst r. rewrite findAll_eq. cbn [fst].
    rewrite run_creates. change (todos (service init)) with (@nil Todo.t).
    rewrite app_nil_l. split; [done|].
    pose proof (created_ids_length clock (Create <$> dtos) init) as Hlen.
    rewrite created_ids_created, length_fmap in Hlen.
    by rewrite Hlen, filter_creates_length.
  - intros ops Hops r. subst r. rewrite findAll_eq. cbn [fst].
    pose proof (run_ids_no_remove clock ops init Hops) as Hids.
    unfold ids in Hids. simpl in Hids. split; [done|].
    rewrite <- (length_fmap Todo.id), Hids. apply created_ids_length.
  - apply findAll_eq.
  - done.
  - intros ops r. subst r. rewrite findAll_eq. cbn [fst].
    apply (run_ids_sublist clock ops init).
  - intros id dto w. rewrite update_eq.
    destruct (List.find _ _); [|done]. cbn [snd service todos].
    by rewrite mutate_found_ids.
  - intros id w. rewrite remove_eq. cbn [snd service todos].
    apply bool_filter_sublist.
Qed.

Lemma findAll_insertion_order_witness :
  let r := run clock0 [Create (CreateTodoDto.mk "buy milk"); FindAll;
                       Update (Int 1) (UpdateTodoDto.mk None (Some true));
                       Create (CreateTodoDto.mk "walk dog")] init in
  Todo.id <$> (TodoService.findAll r.2).1 = created_ids r.1 /\
  length (TodoService.findAll r.2).1 = 2%nat.
Proof.
  exact (proj1 (proj2 (findAll_insertion_order clock0))
           [Create (CreateTodoDto.mk "buy milk"); FindAll;
            Update (Int 1) (UpdateTodoDto.mk None (Some true));
            Create (CreateTodoDto.mk "walk dog")] eq_refl).
Defined.

(** C5: on every state the service can reach, [remove id] returns [false]
    and changes nothing when [findOne id] finds nothing; when [findOne id]
    finds [t] it returns [true] and takes exactly [t] out of the array,
    keeping the other records, their order, the id counter and the clock.
    Afterwards [findOne id] finds nothing, and no later create, after
    whatever further calls, returns the id of [t]. *)
Theorem remove_effect (clock : nat -> Date) (ops : list Op) (id : number) :
  let w := (run clock ops init).2 in
  let b := (TodoService.remove id w).1 in
  let w' := (TodoService.remove id w).2 in
  ((TodoService.findOne id w).1 = None -> b = false /\ w' = w) /\
  (forall t, (TodoService.findOne id w).1 = Some t ->
     b = true /\
     (exists l1 l2,
        todos (service w) = l1 ++ t :: l2 /\
        w' = mkWorld (mkStore (l1 ++ l2) (idCounter (service w))) (reads w)) /\
     (forall ops',
        Forall (fun i => i <> Todo.id t)
          (created_ids (run clock ops' w').1))) /\
  (TodoService.findOne id w').1 = None.
Proof.
  cbv zeta. pose proof (reachable_wf clock ops) as (Hc & Hs & Hb).
  destruct (run clock ops init) as [rs w]. cbn [snd] in *.
  rewrite !findOne_eq, remove_eq. cbv zeta. cbn [fst snd service todos].
  split_and!.
  - intros Hfind%find_None_Forall%filter_negb_id.
    rewrite Hfind, Nat.eqb_refl. by destruct w as [[??]?].
  - intros t Hfind.
    destruct (find_Some_split _ _ _ Hfind) as (l1 & l2 & Hl & _ & Ht).
    unfold ids in *. rewrite Hl in *.
    rewrite (filter_split_unique id l1 t l2) by done. split_and!.
    + rewrite !length_app. simpl.
      destruct (Nat.eqb_spec (length l1 + length l2)
                  (length l1 + S (length l2))); [lia|done].
    + by exists l1, l2.
    + intros ops'.
      destruct (run_created clock ops'
                  (mkWorld (mkStore (l1 ++ l2) (idCounter (service w)))
                     (reads w))) as (_ & Hids & _).
      cbn [service idCounter] in Hids.
      eapply Forall_impl; [exact Hids|]. simpl. intros i Hi.
      rewrite fmap_app, fmap_cons in Hb.
      apply Forall_app in Hb as [_ Hb]. apply Forall_cons in Hb as [Hb _]. lia.
  - apply find_filter_negb.
Qed.

Lemma remove_effect_witness :
  (TodoService.remove (Int 1) w0).1 = true /\
  (exists l1 l2,
     todos (service w0) =
       l1 ++ Todo.mk 1 "buy milk" false 1700000000000 1700000000001 :: l2 /\
     (TodoService.remove (Int 1) w0).2 =
       mkWorld (mkStore (l1 ++ l2) (idCounter (service w0))) (reads w0)) /\
  (forall ops',
     Forall (fun i => i <> 1)
       (created_ids (run clock0 ops' (TodoService.remove (Int 1) w0).2).1)).
Proof.
  exact (proj1 (proj2 (remove_effect clock0
                         [Create (CreateTodoDto.mk "buy milk");
                          Create (CreateTodoDto.mk "walk dog")] (Int 1)))
           (Todo.mk 1 "buy milk" false 1700000000000 1700000000001) eq_refl).
Defined.

(** C6: when [findOne id] finds nothing, [update id dto] returns the
    not-found value and leaves the whole state as it was: every record, the
    id counter, and the clock, which is not read. *)
Theorem update_not_found_changes_nothing
    (clock : nat -> Date) (id : number) (dto : UpdateTodoDto.t) (w : World) :
  (TodoService.findOne id w).1 = None ->
  TodoService.update clock id dto w = (None, w).
Proof.
  rewrite findOne_eq. cbn [fst]. intros Hfind. by rewrite update_eq, Hfind.
Qed.

Lemma update_not_found_changes_nothing_witness :
  TodoService.update clock0 (Int 99) (UpdateTodoDto.mk (Some "x") None) w0 =
  (None, w0).
Proof.
  exact (update_not_found_changes_nothing clock0 (Int 99)
           (UpdateTodoDto.mk (Some "x") None) w0 eq_refl).
Defined.

(** C7, as stated, fails: the service stores whatever title it is handed.
    A create with the empty title leaves a record with an empty title in the
    array, and so does an update that carries the empty title. *)
Lemma empty_title_is_stored :
  ~ titled (service (run clock0 [Create (CreateTodoDto.mk "")] init).2) /\
  ~ titled (service
              (run clock0 [Create (CreateTodoDto.mk "buy milk");
                           Update (Int 1) (UpdateTodoDto.mk (Some "") None)]
                 init).2).
Proof.
  split; intros H; apply Forall_inv in H; by apply H.
Qed.

(** C7, amended: the service checks no title, and a record's title is the
    one handed to create or to the last update that carried one; so when
    every title handed to create and to update along a sequence of calls is
    non-empty, every record of the array has a non-empty title. *)
Theorem titles_nonempty_when_supplied_nonempty
    (clock : nat -> Date) (ops : list Op) :
  Forall (fun s => s <> "") (supplied_titles ops) ->
  titled (service (run clock ops init).2).
Proof. intros Hops. apply run_titled; [done|]. constructor. Qed.

Lemma titles_nonempty_when_supplied_nonempty_witness :
  titled (service
            (run clock0
               [Create (CreateTodoDto.mk "buy milk");
                Update (Int 1) (UpdateTodoDto.mk (Some "buy oat milk") None);
                Update (Int 1) (UpdateTodoDto.mk None (Some true))]
               init).2).
Proof.
  apply (titles_nonempty_when_supplied_nonempty clock0
           [Create (CreateTodoDto.mk "buy milk");
            Update (Int 1) (UpdateTodoDto.mk (Some "buy oat milk") None);
            Update (Int 1) (UpdateTodoDto.mk None (Some true))]).
  repeat constructor; discriminate.
Defined.

(** C8, as stated, fails: the stamps are readings of the wall clock, and
    nothing keeps a later reading from being earlier.  With a clock that goes
    back between the two readings of [create] the new record has
    [updatedAt < createdAt]; with a clock that is set back after a create,
    the next [update] leaves the record with [updatedAt < createdAt]. *)
Lemma stamps_follow_a_clock_set_back :
  ~ stamped (service
               (run clock_back [Create (CreateTodoDto.mk "buy milk")] init).2) /\
  ~ stamped (service
               (run clock_reset
                  [Create (CreateTodoDto.mk "buy milk");
                   Update (Int 1) (UpdateTodoDto.mk None (Some true))]
                  init).2).
Proof.
  split; intros H; apply Forall_inv in H; revert H; vm_compute;
    intros H; by apply H.
Qed.

(** C8, amended: provided the successive readings of the clock never go
    back, every record of the array has [createdAt <= updatedAt] after every
    sequence of calls.  Whatever the clock, [create] stamps [createdAt] with
    one reading and [updatedAt] with the next; [update] replaces the record
    it found by one whose [updatedAt] is the reading taken by the call and
    whose [createdAt] is kept, and keeps every [createdAt] of the array; and
    only [create] and [update] put a record into the array that was not
    there before, namely the one they return, so no other call changes a
    stamp. *)
Theorem createdAt_le_updatedAt (clock : nat -> Date) :
  (monotone clock -> forall ops, stamped (service (run clock ops init).2)) /\
  (forall dto w,
     let t := (TodoService.create clock dto w).1 in
     Todo.createdAt t = clock (reads w) /\
     Todo.updatedAt t = clock (S (reads w))) /\
  (forall id dto w,
     Todo.createdAt <$> todos (service (TodoService.update clock id dto w).2) =
     Todo.createdAt <$> todos (service w)) /\
  (forall id dto w t,
     (TodoService.findOne id w).1 = Some t ->
     exists l1 l2 t',
       todos (service w) = l1 ++ t :: l2 /\
       TodoService.update clock id dto w =
         (Some t',
          mkWorld (mkStore (l1 ++ t' :: l2) (idCounter (service w)))
            (S (reads w))) /\
       Todo.updatedAt t' = (TodoService.new_Date clock w).1 /\
       Todo.createdAt t' = Todo.createdAt t) /\
  (forall op w t,
     t ∈ todos (service (exec clock op w).2) ->
     t ∈ todos (service w) \/
     (exec clock op w).1 = Created t \/
     (exec clock op w).1 = Updated (Some t)).
Proof.
  split_and!.
  - intros Hclock ops.
    assert (dated clock init) as Hinit by constructor.
    pose proof (run_dated clock Hclock ops init Hinit) as Hd.
    unfold stamped. eapply Forall_impl; [exact Hd|]. simpl. tauto.
  - intros dto w. by rewrite create_eq.
  - intros id dto w. rewrite update_eq.
    destruct (List.find _ _); [|done]. cbn [snd service todos].
    by rewrite mutate_found_createdAt.
  - intros id dto w t. rewrite findOne_eq. cbn [fst]. intros Hfind.
    destruct (find_Some_split _ _ _ Hfind) as (l1 & l2 & Hl & H1 & Ht).
    exists l1, l2, (Object_assign t dto (clock (reads w))).
    split_and!; [done| |done|done].
    rewrite update_eq, Hfind, Hl. by rewrite mutate_found_split.
  - apply exec_records.
Qed.

Lemma createdAt_le_updatedAt_witness :
  stamped (service
             (run clock0 [Create (CreateTodoDto.mk "buy milk");
                          Create (CreateTodoDto.mk "walk dog");
                          Update (Int 1) (UpdateTodoDto.mk None (Some true))]
                init).2).
Proof.
  apply (proj1 (createdAt_le_updatedAt clock0)).
  unfold monotone, clock0. intros i j Hij. lia.
Defined.

(** C9: when the converted path parameter matches no record, the GET, PUT
    and DELETE handlers throw the not-found exception, whose status is 404
    and whose message is [Todo with ID {id} not found] with the path segment
    as it was received, and they leave the state as it was.  A segment that
    is not numeric converts to [NaN], which matches no record.  When the
    service reports a removal, DELETE returns the body whose message is
    [Todo deleted successfully]. *)
Theorem controller_not_found
    (clock : nat -> Date) (ToNumber : string -> number)
    (id : string) (dto : UpdateTodoDto.t) (w : World) :
  let e := NotFoundException ("Todo with ID " +:+ id +:+ " not found") in
  ((TodoService.findOne (ToNumber id) w).1 = None ->
     TodoController.findOne ToNumber id w = (Throw e, w) /\
     TodoController.update clock ToNumber id dto w = (Throw e, w) /\
     TodoController.remove ToNumber id w = (Throw e, w)) /\
  (ToNumber id = NaN -> (TodoService.findOne (ToNumber id) w).1 = None) /\
  getStatus e = 404 /\
  ((TodoService.remove (ToNumber id) w).1 = true ->
     (TodoController.remove ToNumber id w).1 =
       Return (mkBody "Todo deleted successfully")).
Proof.
  cbv zeta. split_and!.
  - rewrite findOne_eq. cbn [fst]. intros Hfind.
    unfold TodoController.findOne, TodoController.update,
      TodoController.remove, mbind, M_bind.
    rewrite findOne_eq, update_eq, remove_eq, Hfind. cbv zeta.
    apply find_None_Forall, filter_negb_id in Hfind.
    rewrite Hfind, Nat.eqb_refl. by destruct w as [[??]?].
  - intros ->. rewrite findOne_eq. cbn [fst].
    apply find_None_Forall, Forall_forall. done.
  - done.
  - unfold TodoController.remove, mbind, M_bind.
    destruct (TodoService.remove (ToNumber id) w) as [b w'].
    cbn [fst]. by intros ->.
Qed.

Lemma controller_not_found_witness :
  TodoController.findOne ToNumber0 "abc" w0 =
    (Throw (NotFoundException "Todo with ID abc not found"), w0) /\
  TodoController.update clock0 ToNumber0 "abc"
      (UpdateTodoDto.mk (Some "x") None) w0 =
    (Throw (NotFoundException "Todo with ID abc not found"), w0) /\
  TodoController.remove ToNumber0 "abc" w0 =
    (Throw (NotFoundException "Todo with ID abc not found"), w0).
Proof.
  exact (proj1 (controller_not_found clock0 ToNumber0 "abc"
                  (UpdateTodoDto.mk (Some "x") None) w0) eq_refl).
Defined.

(** C10: whatever the first [remove id] returned, a second [remove id]
    returns [false] and leaves the records, the id counter and the clock as
    the first call left them. *)
Theorem remove_twice (id : number) (w : World) :
  let w1 := (TodoService.remove id w).2 in
  TodoService.remove id w1 = (false, w1).
Proof.
  cbv zeta. rewrite !remove_eq. cbv zeta.
  cbn [fst snd service todos reads idCounter].
  unfold matches. rewrite filter_negb_idemp. by rewrite Nat.eqb_refl.
Qed.

(** * Further properties of the service and of the controller *)

(** ** Lists, continued *)

Section ListFacts2.
Context (p : Todo.t -> bool).

Lemma find_split_first l1 t l2 :
  Forall (fun x => p x = false) l1 -> p t = true ->
  List.find p (l1 ++ t :: l2) = Some t.
Proof.
  induction 1 as [|x l1 Hx _ IH]; intros Ht; simpl.
  - by rewrite Ht.
  - rewrite Hx. by apply IH.
Qed.

Lemma find_app_None l l' :
  List.find p l = None -> List.find p (l ++ l') = List.find p l'.
Proof.
  induction l as [|x l IH]; simpl; [done|].
  destruct (p x); [discriminate|done].
Qed.

Lemma find_app_Some l l' t :
  List.find p l = Some t -> List.find p (l ++ l') = Some t.
Proof.
  induction l as [|x l IH]; simpl; [discriminate|].
  destruct (p x); [done|apply IH].
Qed.

Lemma find_mutate_found f l :
  (forall t, p (f t) = p t) ->
  List.find p (mutate_found p f l) = f <$> List.find p l.
Proof.
  intros Hf. induction l as [|x l IH]; simpl; [done|].
  destruct (p x) eqn:E; simpl.
  - by rewrite Hf, E.
  - by rewrite E.
Qed.

Lemma mutate_found_length f l : length (mutate_found p f l) = length l.
Proof.
  induction l as [|x l IH]; simpl; [done|].
  destruct (p x); simpl; by rewrite ?IH.
Qed.

End ListFacts2.

(** A stored id below the counter is not the next id. *)
Lemma wf_counter_fresh s :
  wf s -> Forall (fun t => matches (Int (idCounter s)) t = false) (todos s).
Proof.
  intros (_ & _ & Hb). unfold ids in Hb. rewrite Forall_fmap in Hb.
  eapply Forall_impl; [exact Hb|]. intros t Ht. simpl in Ht.
  unfold matches. simpl. apply Z.eqb_neq. lia.
Qed.

(** In a well-formed store a record is found by its id. *)
Lemma wf_find_elem s t :
  wf s -> t ∈ todos s ->
  List.find (matches (Int (Todo.id t))) (todos s) = Some t.
Proof.
  intros (_ & Hs & _) (l1 & l2 & Hl)%list_elem_of_split.
  unfold ids in Hs. rewrite Hl in *.
  assert (matches (Int (Todo.id t)) t = true) as Ht
    by (unfold matches; simpl; apply Z.eqb_refl).
  destruct (sorted_split_nomatch _ _ _ _ Hs Ht) as [H1 _].
  by apply find_split_first.
Qed.

Section Counting.
Context (clock : nat -> Date).

Lemma creations_cons op ops :
  creations (op :: ops) = ((if is_create op then 1 else 0) + creations ops)%nat.
Proof. unfold creations. simpl. by destruct (is_create op). Qed.

Lemma removals_cons r rs :
  removals (r :: rs) = ((if is_removed r then 1 else 0) + removals rs)%nat.
Proof. unfold removals. simpl. by destruct (is_removed r). Qed.

Lemma run_created_seq ops : forall w,
  created_ids (run clock ops w).1 =
    seqZ (idCounter (service w)) (Z.of_nat (creations ops)) /\
  idCounter (service (run clock ops w).2) =
    idCounter (service w) + Z.of_nat (creations ops).
Proof.
  induction ops as [|op ops IH]; intros w.
  - unfold creations. simpl. split; [done|lia].
  - rewrite run_cons. cbn [fst snd]. cbv zeta.
    destruct (IH (exec clock op w).2) as [IH1 IH2].
    rewrite created_ids_cons, exec_created, IH1, IH2, exec_counter,
      creations_cons.
    destruct (is_create op); simpl app.
    + split; [|lia]. rewrite (seqZ_cons _ (Z.of_nat (1 + _))) by lia.
      do 2 f_equal; lia.
    + split; [|lia]. do 2 f_equal; lia.
Qed.

Lemma exec_length op w :
  wf (service w) ->
  (length (todos (service (exec clock op w).2)) +
     removals [(exec clock op w).1] =
   length (todos (service w)) + (if is_create op then 1 else 0))%nat.
Proof.
  intros (Hc & Hs & Hb).
  destruct op as [dto| |id|id dto|id]; unfold exec, fmap, M_fmap;
    rewrite ?create_eq, ?findAll_eq, ?findOne_eq, ?update_eq, ?remove_eq;
    cbv zeta; cbn [fst snd service todos is_create];
    unfold removals; cbn [List.filter is_removed length]; try lia.
  - rewrite length_app. simpl. lia.
  - destruct (List.find _ _); cbn [fst snd service todos is_removed length];
      rewrite ?mutate_found_length; lia.
  - destruct (List.find (matches id) (todos (service w))) as [t|] eqn:Hfind.
    + destruct (find_Some_split _ _ _ Hfind) as (l1 & l2 & Hl & _ & Ht).
      unfold ids in Hs. rewrite Hl in *.
      rewrite (filter_split_unique id l1 t l2) by done.
      rewrite !length_app. cbn [length].
      destruct (Nat.eqb_spec (length l1 + length l2)
                  (length l1 + S (length l2))); [lia|].
      simpl. lia.
    + apply find_None_Forall, filter_negb_id in Hfind.
      rewrite Hfind, Nat.eqb_refl. simpl. lia.
Qed.

Lemma run_length ops : forall w,
  wf (service w) ->
  (length (todos (service (run clock ops w).2)) + removals (run clock ops w).1 =
   length (todos (service w)) + creations ops)%nat.
Proof.
  induction ops as [|op ops IH]; intros w Hw.
  - simpl. unfold removals, creations. simpl. lia.
  - rewrite run_cons. cbn [fst snd]. cbv zeta.
    pose proof (exec_length op w Hw) as H1.
    pose proof (IH _ (exec_wf clock op w Hw)) as H2.
    rewrite removals_cons, creations_cons.
    unfold removals in H1 at 1. cbn [List.filter length] in H1.
    destruct (is_removed (exec clock op w).1), (is_create op);
      cbn [List.filter length] in H1; lia.
Qed.

End Counting.

(** X1: the ids a fresh service hands out are 1, 2, 3, ... in call order,
    without gaps, whatever other calls come in between; and the counter
    ends at one more than the number of creates. *)
Theorem created_ids_consecutive (clock : nat -> Date) (ops : list Op) :
  created_ids (run clock ops init).1 = seqZ 1 (Z.of_nat (creations ops)) /\
  idCounter (service (run clock ops init).2) = 1 + Z.of_nat (creations ops).
Proof. apply (run_created_seq clock ops init). Qed.

(** X2: in every state a fresh service can reach, the ids stored in the
    array are pairwise distinct, grow along the array, are positive, and are
    below the counter. *)
Theorem stored_ids_unique_and_bounded (clock : nat -> Date) (ops : list Op) :
  let s := service (run clock ops init).2 in
  NoDup (ids s) /\
  StronglySorted Z.lt (ids s) /\
  Forall (fun i => 1 <= i < idCounter s) (ids s).
Proof.
  cbv zeta. destruct (reachable_wf clock ops) as (_ & Hs & Hb).
  split_and!; [by apply StronglySorted_lt_NoDup|done|].
  eapply Forall_impl; [exact Hb|]. simpl. lia.
Qed.

(** X3: after every sequence of calls on a fresh service, the number of
    stored records is the number of creates less the number of removes that
    returned [true]: each successful remove takes out one record, and no
    other call changes the length. *)
Theorem stored_count (clock : nat -> Date) (ops : list Op) :
  (length (todos (service (run clock ops init).2)) +
     removals (run clock ops init).1 = creations ops)%nat.
Proof. apply (run_length clock ops init init_wf). Qed.

(** ** Lookups after a call *)

Lemma matches_inj id id' x :
  matches id x = true -> matches id' x = true -> id = id'.
Proof.
  unfold matches. destruct id, id'; simpl; try discriminate.
  intros <-%Z.eqb_eq <-%Z.eqb_eq. done.
Qed.

Lemma matches_other id id' x :
  id' <> id -> matches id x = true -> matches id' x = false.
Proof.
  intros Hne Hx. destruct (matches id' x) eqn:E; [|done].
  destruct Hne. by eapply matches_inj.
Qed.

Lemma matches_non_integer id x : is_integer id = false -> matches id x = false.
Proof. by destruct id. Qed.

Section Frames.
Context (p q : Todo.t -> bool).
Context (Hpq : forall x, p x = true -> q x = false).

Lemma find_mutate_found_other f l :
  (forall x, q (f x) = q x) ->
  List.find q (mutate_found p f l) = List.find q l.
Proof.
  intros Hf. induction l as [|x l IH]; simpl; [done|].
  destruct (p x) eqn:E; simpl.
  - by rewrite Hf, (Hpq x E).
  - by rewrite IH.
Qed.

Lemma find_filter_other l :
  List.find q (List.filter (fun x => negb (p x)) l) = List.find q l.
Proof.
  induction l as [|x l IH]; simpl; [done|].
  destruct (p x) eqn:E; simpl.
  - by rewrite (Hpq x E).
  - by rewrite IH.
Qed.

End Frames.

Lemma find_app_last_false (q : Todo.t -> bool) l t :
  q t = false -> List.find q (l ++ [t]) = List.find q l.
Proof.
  intros Ht. induction l as [|x l IH]; simpl; [by rewrite Ht|].
  by destruct (q x).
Qed.

(** X4: on every state a fresh service can reach, a record just created is
    found under the id it was given, exactly as [create] returned it. *)
Theorem create_then_findOne
    (clock : nat -> Date) (ops : list Op) (dto : CreateTodoDto.t) :
  let w := (run clock ops init).2 in
  let t := (TodoService.create clock dto w).1 in
  let w1 := (TodoService.create clock dto w).2 in
  TodoService.findOne (Int (Todo.id t)) w1 = (Some t, w1).
Proof.
  cbv zeta. pose proof (reachable_wf clock ops) as Hw.
  destruct (run clock ops init) as [rs w]. cbn [snd] in *.
  rewrite create_eq, findOne_eq. cbv zeta. cbn [fst snd service todos Todo.id].
  rewrite find_app_None.
  - simpl. unfold matches. simpl. by rewrite Z.eqb_refl.
  - by apply find_None_Forall, wf_counter_fresh.
Qed.

(** X5: on every state a fresh service can reach, removing the record just
    created succeeds and gives back the array as it was before the create;
    the counter stays advanced, so the id is spent. *)
Theorem create_then_remove
    (clock : nat -> Date) (ops : list Op) (dto : CreateTodoDto.t) :
  let w := (run clock ops init).2 in
  let t := (TodoService.create clock dto w).1 in
  let w1 := (TodoService.create clock dto w).2 in
  TodoService.remove (Int (Todo.id t)) w1 =
    (true,
     mkWorld (mkStore (todos (service w)) (idCounter (service w) + 1))
       (S (S (reads w)))).
Proof.
  cbv zeta. pose proof (reachable_wf clock ops) as Hw.
  destruct (run clock ops init) as [rs w]. cbn [snd] in *.
  rewrite create_eq, remove_eq. cbv zeta.
  cbn [fst snd service todos idCounter reads Todo.id].
  set (t := Todo.mk _ _ _ _ _).
  assert (List.filter (fun x => negb (matches (Int (idCounter (service w))) x))
            (todos (service w) ++ [t]) = todos (service w)) as Hkept.
  { rewrite List.filter_app, filter_negb_id by by apply wf_counter_fresh.
    cbn [List.filter]. unfold matches. cbn [strict_eq Todo.id t].
    rewrite Z.eqb_refl. cbn [negb]. apply app_nil_r. }
  rewrite Hkept, length_app. cbn [length].
  destruct (Nat.eqb_spec (length (todos (service w)))
              (length (todos (service w)) + 1)); [lia|done].
Qed.

(** X6: a record that [update] returns is what [findOne] then finds under
    the same id, on any state. *)
Theorem update_then_findOne
    (clock : nat -> Date) (id : number) (dto : UpdateTodoDto.t)
    (w : World) (t' : Todo.t) :
  (TodoService.update clock id dto w).1 = Some t' ->
  TodoService.findOne id (TodoService.update clock id dto w).2 =
    (Some t', (TodoService.update clock id dto w).2).
Proof.
  rewrite update_eq, findOne_eq.
  destruct (List.find (matches id) (todos (service w))) as [t|] eqn:Hfind;
    cbn [fst snd service todos]; [|discriminate].
  intros [= <-]. by rewrite find_mutate_found, Hfind.
Qed.

Lemma update_then_findOne_witness :
  TodoService.findOne (Int 2)
    (TodoService.update clock0 (Int 2)
       (UpdateTodoDto.mk (Some "walk the dog") None) w0).2 =
  (Some (Todo.mk 2 "walk the dog" false 1700000000002 1700000000004),
   (TodoService.update clock0 (Int 2)
      (UpdateTodoDto.mk (Some "walk the dog") None) w0).2).
Proof.
  exact (update_then_findOne clock0 (Int 2)
           (UpdateTodoDto.mk (Some "walk the dog") None) w0
           (Todo.mk 2 "walk the dog" false 1700000000002 1700000000004)
           eq_refl).
Defined.

(** X7: [update id] does not change what [findOne] finds under any other
    id, on any state. *)
Theorem update_keeps_other_lookups
    (clock : nat -> Date) (id id' : number) (dto : UpdateTodoDto.t)
    (w : World) :
  id' <> id ->
  (TodoService.findOne id' (TodoService.update clock id dto w).2).1 =
  (TodoService.findOne id' w).1.
Proof.
  intros Hne. rewrite update_eq, !findOne_eq.
  destruct (List.find (matches id) (todos (service w))); [|done].
  cbn [fst snd service todos].
  apply find_mutate_found_other; [|done].
  intros x. by apply matches_other.
Qed.

Lemma update_keeps_other_lookups_witness :
  (TodoService.findOne (Int 2)
     (TodoService.update clock0 (Int 1)
        (UpdateTodoDto.mk None (Some true)) w0).2).1 =
  (TodoService.findOne (Int 2) w0).1.
Proof.
  apply (update_keeps_other_lookups clock0 (Int 1) (Int 2)
           (UpdateTodoDto.mk None (Some true)) w0).
  discriminate.
Defined.

(** X8: [remove id] does not change what [findOne] finds under any other
    id, on any state. *)
Theorem remove_keeps_other_lookups (id id' : number) (w : World) :
  id' <> id ->
  (TodoService.findOne id' (TodoService.remove id w).2).1 =
  (TodoService.findOne id' w).1.
Proof.
  intros Hne. rewrite remove_eq, !findOne_eq. cbv zeta.
  cbn [fst snd service todos].
  apply find_filter_other. intros x. by apply matches_other.
Qed.

Lemma remove_keeps_other_lookups_witness :
  (TodoService.findOne (Int 2) (TodoService.remove (Int 1) w0).2).1 =
  (TodoService.findOne (Int 2) w0).1.
Proof.
  apply (remove_keeps_other_lookups (Int 1) (Int 2) w0). discriminate.
Defined.

(** X9: [create] does not change what [findOne] finds under any id other
    than the one it hands out, on any state. *)
Theorem create_keeps_other_lookups
    (clock : nat -> Date) (dto : CreateTodoDto.t) (id' : number) (w : World) :
  id' <> Int (idCounter (service w)) ->
  (TodoService.findOne id' (TodoService.create clock dto w).2).1 =
  (TodoService.findOne id' w).1.
Proof.
  intros Hne. rewrite create_eq, !findOne_eq. cbv zeta.
  cbn [fst snd service todos].
  apply find_app_last_false. unfold matches. simpl.
  destruct id' as [z| |]; simpl; try done.
  apply Z.eqb_neq. congruence.
Qed.

Lemma create_keeps_other_lookups_witness :
  (TodoService.findOne (Int 1)
     (TodoService.create clock0 (CreateTodoDto.mk "water plants") w0).2).1 =
  (TodoService.findOne (Int 1) w0).1.
Proof.
  apply (create_keeps_other_lookups clock0
           (CreateTodoDto.mk "water plants") (Int 1) w0).
  discriminate.
Defined.

(** X10: an id that is not an integer (a fraction, an infinity, [NaN])
    matches no record on any state: [findOne] and [update] give the
    not-found value, [remove] returns [false], and none of them changes the
    state. *)
Theorem non_integer_id_matches_nothing
    (clock : nat -> Date) (id : number) (dto : UpdateTodoDto.t) (w : World) :
  is_integer id = false ->
  TodoService.findOne id w = (None, w) /\
  TodoService.update clock id dto w = (None, w) /\
  TodoService.remove id w = (false, w).
Proof.
  intros Hid.
  assert (Forall (fun x => matches id x = false) (todos (service w))) as Hall.
  { apply Forall_forall. intros x _. by apply matches_non_integer. }
  pose proof (proj2 (find_None_Forall _ _) Hall) as Hfind.
  rewrite findOne_eq, update_eq, remove_eq, Hfind. cbv zeta.
  rewrite (filter_negb_id _ _ Hall), Nat.eqb_refl.
  by destruct w as [[??]?].
Qed.

Lemma non_integer_id_matches_nothing_witness :
  TodoService.findOne NaN w0 = (None, w0) /\
  TodoService.update clock0 NaN (UpdateTodoDto.mk (Some "x") None) w0 =
    (None, w0) /\
  TodoService.remove NaN w0 = (false, w0).
Proof.
  exact (non_integer_id_matches_nothing clock0 NaN
           (UpdateTodoDto.mk (Some "x") None) w0 eq_refl).
Defined.

(** X11: on every state a fresh service can reach, every record that
    [findAll] lists is found by [findOne] under its own id. *)
Theorem listed_records_are_found (clock : nat -> Date) (ops : list Op) :
  let w := (run clock ops init).2 in
  Forall (fun t => TodoService.findOne (Int (Todo.id t)) w = (Some t, w))
    (TodoService.findAll w).1.
Proof.
  cbv zeta. pose proof (reachable_wf clock ops) as Hw.
  destruct (run clock ops init) as [rs w]. cbn [snd] in *.
  rewrite findAll_eq. cbn [fst]. apply Forall_forall. intros t Ht.
  rewrite findOne_eq. by rewrite wf_find_elem.
Qed.

(** ** Stamps along a run *)

Section Timed.
Context (clock : nat -> Date) (Hclock : monotone clock).

Lemma init_timed : timed clock init.
Proof. split; constructor. Qed.

Lemma exec_timed op w : timed clock w -> timed clock (exec clock op w).2.
Proof.
  unfold timed. intros [Hb Hs].
  destruct op as [dto| |id|id dto|id]; unfold exec, fmap, M_fmap;
    rewrite ?create_eq, ?findAll_eq, ?findOne_eq, ?update_eq, ?remove_eq;
    cbv zeta; cbn [fst snd service todos reads]; try done.
  - pose proof (Hclock (reads w) (S (reads w)) ltac:(lia)) as H1.
    pose proof (Hclock (S (reads w)) (S (S (reads w))) ltac:(lia)) as H2.
    revert Hb H1 H2.
    generalize (clock (reads w)) (clock (S (reads w)))
      (clock (S (S (reads w)))).
    intros a b c Hb H1 H2. split.
    + apply Forall_app. split.
      * eapply Forall_impl; [done|]. simpl. lia.
      * repeat constructor; cbn [Todo.createdAt Todo.updatedAt]; lia.
    + rewrite fmap_app. apply StronglySorted_app. split_and!; [|done|].
      * intros x y Hx ->%list_elem_of_singleton. cbn [Todo.createdAt].
        apply list_elem_of_fmap in Hx as (t & -> & Ht).
        eapply Forall_forall in Hb; [|done]. simpl in Hb. lia.
      * repeat constructor.
  - destruct (List.find _ _) as [found|]; [|done].
    cbn [snd service todos reads].
    rewrite mutate_found_createdAt by done. split; [|done].
    pose proof (Hclock (reads w) (S (reads w)) ltac:(lia)) as H1.
    revert Hb H1. generalize (clock (reads w)) (clock (S (reads w))).
    intros a b Hb H1. eapply mutate_found_Forall; [done| |].
    + simpl. lia.
    + intros x. cbn [Object_assign Todo.createdAt Todo.updatedAt]. lia.
  - pose proof (bool_filter_sublist (fun t => negb (matches id t))
                  (todos (service w))) as Hsub.
    split; [by eapply Forall_sublist|].
    eapply StronglySorted_sublist; [|done]. by apply fmap_sublist.
Qed.

Lemma run_timed ops : forall w,
  timed clock w -> timed clock (run clock ops w).2.
Proof.
  induction ops as [|op ops IH]; intros w Hw; [done|].
  rewrite run_cons. cbn [snd]. cbv zeta. by apply IH, exec_timed.
Qed.

End Timed.

(** X12: with a clock whose successive readings never go back, on every
    state a fresh service can reach a successful [update] never moves
    [updatedAt] backwards: the returned record's [updatedAt] is at least the
    one the record had. *)
Theorem update_never_rewinds_updatedAt
    (clock : nat -> Date) (ops : list Op) (id : number)
    (dto : UpdateTodoDto.t) (t : Todo.t) :
  monotone clock ->
  let w := (run clock ops init).2 in
  (TodoService.findOne id w).1 = Some t ->
  exists t', (TodoService.update clock id dto w).1 = Some t' /\
             Todo.updatedAt t <= Todo.updatedAt t'.
Proof.
  intros Hclock. cbv zeta.
  pose proof (run_timed clock Hclock ops init (init_timed clock)) as [Hb _].
  destruct (run clock ops init) as [rs w]. cbn [snd] in *.
  rewrite findOne_eq, update_eq. cbn [fst]. intros Hfind. rewrite Hfind.
  eexists. split; [done|]. cbn [Object_assign Todo.updatedAt].
  apply find_Some_split in Hfind as (l1 & l2 & Hl & _).
  rewrite Hl in Hb. apply Forall_app in Hb as [_ Hb].
  apply Forall_cons in Hb as [Hb _]. tauto.
Qed.

Lemma update_never_rewinds_updatedAt_witness :
  exists t',
    (TodoService.update clock0 (Int 1) (UpdateTodoDto.mk None (Some true))
       w0).1 = Some t' /\
    1700000000001 <= Todo.updatedAt t'.
Proof.
  apply (update_never_rewinds_updatedAt clock0
           [Create (CreateTodoDto.mk "buy milk");
            Create (CreateTodoDto.mk "walk dog")] (Int 1)
           (UpdateTodoDto.mk None (Some true))
           (Todo.mk 1 "buy milk" false 1700000000000 1700000000001)).
  - unfold monotone, clock0. intros i j Hij. lia.
  - reflexivity.
Defined.

(** X13: with a clock whose successive readings never go back, the array
    of every state a fresh service can reach is ordered by creation time:
    the [createdAt] stamps never decrease along what [findAll] returns. *)
Theorem findAll_ordered_by_createdAt (clock : nat -> Date) (ops : list Op) :
  monotone clock ->
  StronglySorted Z.le
    (Todo.createdAt <$> (TodoService.findAll (run clock ops init).2).1).
Proof.
  intros Hclock. rewrite findAll_eq. cbn [fst].
  apply (run_timed clock Hclock ops init (init_timed clock)).
Qed.

Lemma findAll_ordered_by_createdAt_witness :
  StronglySorted Z.le
    (Todo.createdAt <$>
       (TodoService.findAll
          (run clock0 [Create (CreateTodoDto.mk "buy milk");
                       Create (CreateTodoDto.mk "walk dog");
                       Remove (Int 1);
                       Create (CreateTodoDto.mk "water plants")] init).2).1).
Proof.
  apply (findAll_ordered_by_createdAt clock0).
  unfold monotone, clock0. intros i j Hij. lia.
Defined.

(** ** Completion *)

Section Completion.
Context (clock : nat -> Date).

Lemma exec_not_completed op w :
  completes op = false ->
  Forall (fun t => Todo.isCompleted t = false) (todos (service w)) ->
  Forall (fun t => Todo.isCompleted t = false)
    (todos (service (exec clock op w).2)).
Proof.
  intros Hop Hw.
  destruct op as [dto| |id|id dto|id]; unfold exec, fmap, M_fmap;
    rewrite ?create_eq, ?findAll_eq, ?findOne_eq, ?update_eq, ?remove_eq;
    cbv zeta; cbn [fst snd service todos]; try done.
  - apply Forall_app. split; [done|]. by repeat constructor.
  - destruct (List.find _ _) as [found|]; [|done]. cbn [snd service todos].
    eapply mutate_found_Forall; [done|done|]. intros x Hx.
    destruct dto as [title [[|]|]]; cbn in *; done.
  - eapply Forall_sublist; [apply bool_filter_sublist|done].
Qed.

Lemma run_not_completed ops : forall w,
  forallb (fun op => negb (completes op)) ops = true ->
  Forall (fun t => Todo.isCompleted t = false) (todos (service w)) ->
  Forall (fun t => Todo.isCompleted t = false)
    (todos (service (run clock ops w).2)).
Proof.
  induction ops as [|op ops IH]; intros w Hops Hw; [done|].
  simpl in Hops. apply andb_prop in Hops as [Hop Hops].
  apply negb_true_iff in Hop.
  rewrite run_cons. cbn [snd]. cbv zeta.
  apply IH; [done|]. by apply exec_not_completed.
Qed.

End Completion.

(** X14: a record is completed only by an update whose patch carries
    [isCompleted: true]: after any sequence of calls on a fresh service in
    which no update carries it, every record is not completed. *)
Theorem completed_only_by_update (clock : nat -> Date) (ops : list Op) :
  forallb (fun op => negb (completes op)) ops = true ->
  Forall (fun t => Todo.isCompleted t = false)
    (todos (service (run clock ops init).2)).
Proof. intros Hops. apply run_not_completed; [done|constructor]. Qed.

Lemma completed_only_by_update_witness :
  Forall (fun t => Todo.isCompleted t = false)
    (todos (service
              (run clock0
                 [Create (CreateTodoDto.mk "buy milk");
                  Update (Int 1) (UpdateTodoDto.mk (Some "buy oat milk") None);
                  Update (Int 1) (UpdateTodoDto.mk None (Some false));
                  Create (CreateTodoDto.mk "walk dog")] init).2)).
Proof.
  exact (completed_only_by_update clock0
           [Create (CreateTodoDto.mk "buy milk");
            Update (Int 1) (UpdateTodoDto.mk (Some "buy oat milk") None);
            Update (Int 1) (UpdateTodoDto.mk None (Some false));
            Create (CreateTodoDto.mk "walk dog")] eq_refl).
Defined.

(** X15: two updates of the same record compose field by field, the later
    patch winning: after [update id d1] and [update id d2] the record has
    the title of [d2] if it carries one, else that of [d1] if it carries
    one, else its own, and likewise for [isCompleted]; [id] and [createdAt]
    are kept and [updatedAt] is the reading taken by the second update. *)
Theorem updates_compose
    (clock : nat -> Date) (id : number) (d1 d2 : UpdateTodoDto.t)
    (w : World) (t : Todo.t) :
  (TodoService.findOne id w).1 = Some t ->
  let w1 := (TodoService.update clock id d1 w).2 in
  (TodoService.update clock id d2 w1).1 =
    Some (Todo.mk (Todo.id t)
            (match UpdateTodoDto.title d2, UpdateTodoDto.title d1 with
             | Some x, _ => x
             | None, Some x => x
             | None, None => Todo.title t
             end)
            (match UpdateTodoDto.isCompleted d2, UpdateTodoDto.isCompleted d1
             with
             | Some b, _ => b
             | None, Some b => b
             | None, None => Todo.isCompleted t
             end)
            (Todo.createdAt t)
            (clock (S (reads w)))).
Proof.
  rewrite findOne_eq. cbn [fst]. intros Hfind. cbv zeta.
  rewrite (update_eq clock id d1 w), Hfind. cbn [snd].
  rewrite update_eq. cbn [service todos reads].
  rewrite find_mutate_found, Hfind by done. cbn [fmap option_fmap option_map fst].
  unfold Object_assign. cbn.
  by destruct d1 as [[?|] [?|]], d2 as [[?|] [?|]].
Qed.

Lemma updates_compose_witness :
  (TodoService.update clock0 (Int 1) (UpdateTodoDto.mk None (Some true))
     (TodoService.update clock0 (Int 1)
        (UpdateTodoDto.mk (Some "buy oat milk") None) w0).2).1 =
  Some (Todo.mk 1 "buy oat milk" true 1700000000000 1700000000005).
Proof.
  exact (updates_compose clock0 (Int 1)
           (UpdateTodoDto.mk (Some "buy oat milk") None)
           (UpdateTodoDto.mk None (Some true)) w0
           (Todo.mk 1 "buy milk" false 1700000000000 1700000000001) eq_refl).
Defined.

(** ** The controller on a record that exists *)

Lemma filter_found_shorter (p : Todo.t -> bool) l t :
  List.find p l = Some t ->
  (length (List.filter (fun x => negb (p x)) l) =? length l)%nat = false.
Proof.
  intros (l1 & l2 & -> & _ & Ht)%find_Some_split.
  rewrite List.filter_app. cbn [List.filter]. rewrite Ht. cbn [negb].
  rewrite !length_app. cbn [length].
  pose proof (List.filter_length_le (fun x => negb (p x)) l1).
  pose proof (List.filter_length_le (fun x => negb (p x)) l2).
  apply Nat.eqb_neq. lia.
Qed.

(** X16: when the converted path parameter matches the record [t], none of
    the three handlers throws: GET returns [t] and changes nothing, PUT
    returns [t] with the patch applied and [updatedAt] refreshed, and DELETE
    returns the success body; this holds on any state. *)
Theorem handlers_succeed_on_match
    (clock : nat -> Date) (ToNumber : string -> number)
    (id : string) (dto : UpdateTodoDto.t) (w : World) (t : Todo.t) :
  (TodoService.findOne (ToNumber id) w).1 = Some t ->
  TodoController.findOne ToNumber id w = (Return t, w) /\
  (TodoController.update clock ToNumber id dto w).1 =
    Return (Object_assign t dto (clock (reads w))) /\
  (TodoController.remove ToNumber id w).1 =
    Return (mkBody "Todo deleted successfully").
Proof.
  rewrite findOne_eq. cbn [fst]. intros Hfind.
  unfold TodoController.findOne, TodoController.update,
    TodoController.remove, mbind, M_bind.
  rewrite findOne_eq, update_eq, remove_eq, Hfind. cbv zeta.
  by rewrite (filter_found_shorter _ _ _ Hfind).
Qed.

Lemma handlers_succeed_on_match_witness :
  TodoController.findOne ToNumber0 "2" w0 =
    (Return (Todo.mk 2 "walk dog" false 1700000000002 1700000000003), w0) /\
  (TodoController.update clock0 ToNumber0 "2"
     (UpdateTodoDto.mk None (Some true)) w0).1 =
    Return (Object_assign
              (Todo.mk 2 "walk dog" false 1700000000002 1700000000003)
              (UpdateTodoDto.mk None (Some true)) (clock0 (reads w0))) /\
  (TodoController.remove ToNumber0 "2" w0).1 =
    Return (mkBody "Todo deleted successfully").
Proof.
  exact (handlers_succeed_on_match clock0 ToNumber0 "2"
           (UpdateTodoDto.mk None (Some true)) w0
           (Todo.mk 2 "walk dog" false 1700000000002 1700000000003) eq_refl).
Defined.

(** X17: after a DELETE of a path parameter, whatever its outcome, GET, PUT
    and DELETE of the same path parameter all throw the not-found exception
    and change nothing; this holds on any state and for any conversion. *)
Theorem handlers_throw_after_delete
    (clock : nat -> Date) (ToNumber : string -> number)
    (id : string) (dto : UpdateTodoDto.t) (w : World) :
  let w1 := (TodoController.remove ToNumber id w).2 in
  let e := NotFoundException ("Todo with ID " +:+ id +:+ " not found") in
  TodoController.findOne ToNumber id w1 = (Throw e, w1) /\
  TodoController.update clock ToNumber id dto w1 = (Throw e, w1) /\
  TodoController.remove ToNumber id w1 = (Throw e, w1).
Proof.
  cbv zeta.
  assert ((TodoController.remove ToNumber id w).2 =
          (TodoService.remove (ToNumber id) w).2) as ->.
  { unfold TodoController.remove, mbind, M_bind.
    destruct (TodoService.remove (ToNumber id) w) as [[|] w']; done. }
  rewrite remove_eq. cbv zeta. cbn [snd].
  unfold TodoController.findOne, TodoController.update,
    TodoController.remove, mbind, M_bind.
  rewrite findOne_eq, update_eq, remove_eq. cbv zeta.
  cbn [service todos idCounter reads].
  rewrite find_filter_negb, filter_negb_idemp, Nat.eqb_refl. done.
Qed.

(** X18: on every state a fresh service can reach, a record created
    through POST is returned by a GET whose path parameter converts to the
    id the record was given. *)
Theorem post_then_get
    (clock : nat -> Date) (ToNumber : string -> number) (ops : list Op)
    (dto : CreateTodoDto.t) (id : string) :
  let w := (run clock ops init).2 in
  let t := (TodoController.create clock dto w).1 in
  let w1 := (TodoController.create clock dto w).2 in
  ToNumber id = Int (Todo.id t) ->
  TodoController.findOne ToNumber id w1 = (Return t, w1).
Proof.
  cbv zeta. pose proof (reachable_wf clock ops) as Hw.
  destruct (run clock ops init) as [rs w]. cbn [snd] in *.
  unfold TodoController.create, TodoController.findOne, mbind, M_bind.
  intros ->. rewrite create_eq, findOne_eq. cbv zeta.
  cbn [fst snd service todos Todo.id].
  rewrite find_app_None by by apply find_None_Forall, wf_counter_fresh.
  simpl. unfold matches. simpl. by rewrite Z.eqb_refl.
Qed.

Lemma post_then_get_witness :
  TodoController.findOne ToNumber0 "3"
    (TodoController.create clock0 (CreateTodoDto.mk "water plants") w0).2 =
  (Return (Todo.mk 3 "water plants" false 1700000000004 1700000000005),
   (TodoController.create clock0 (CreateTodoDto.mk "water plants") w0).2).
Proof.
  exact (post_then_get clock0 ToNumber0
           [Create (CreateTodoDto.mk "buy milk");
            Create (CreateTodoDto.mk "walk dog")]
           (CreateTodoDto.mk "water plants") "3" eq_refl).
Defined.

(** ** What [remove] reports, and where titles come from *)

(** X19: on any state, [remove id] returns [true] exactly when [findOne id]
    would have found a record. *)
Theorem remove_true_iff_found (id : number) (w : World) :
  (TodoService.remove id w).1 = true <->
  (exists t, (TodoService.findOne id w).1 = Some t).
Proof.
  rewrite remove_eq, findOne_eq. cbv zeta. cbn [fst].
  destruct (List.find (matches id) (todos (service w))) as [t|] eqn:Hfind.
  - rewrite (filter_found_shorter _ _ _ Hfind). split; [by eexists|done].
  - apply find_None_Forall, filter_negb_id in Hfind.
    rewrite Hfind, Nat.eqb_refl. split; [done|by intros [t ?]].
Qed.

Section TitlesFrom.
Context (clock : nat -> Date) (P : string -> Prop).

Lemma exec_titles_from op w :
  Forall P (supplied_titles [op]) ->
  Forall (fun t => P (Todo.title t)) (todos (service w)) ->
  Forall (fun t => P (Todo.title t)) (todos (service (exec clock op w).2)).
Proof.
  intros Hop Hw.
  destruct op as [dto| |id|id dto|id]; unfold exec, fmap, M_fmap;
    rewrite ?create_eq, ?findAll_eq, ?findOne_eq, ?update_eq, ?remove_eq;
    cbv zeta; cbn [fst snd service todos]; try done.
  - apply Forall_app. split; [done|]. repeat constructor.
    cbn [Todo.title]. by apply Forall_inv in Hop.
  - destruct (List.find _ _) as [found|]; [|done]. cbn [snd service todos].
    eapply mutate_found_Forall; [done|done|]. intros x Hx.
    destruct dto as [[title|] completed]; cbn in *; [|done].
    by apply Forall_inv in Hop.
  - eapply Forall_sublist; [apply bool_filter_sublist|done].
Qed.

Lemma run_titles_from ops : forall w,
  Forall P (supplied_titles ops) ->
  Forall (fun t => P (Todo.title t)) (todos (service w)) ->
  Forall (fun t => P (Todo.title t)) (todos (service (run clock ops w).2)).
Proof.
  induction ops as [|op ops IH]; intros w Hops Hw; [done|].
  rewrite run_cons. cbn [snd]. cbv zeta.
  rewrite supplied_titles_cons in Hops.
  apply Forall_app in Hops as [Hop Hops].
  apply IH; [done|]. by apply exec_titles_from.
Qed.

End TitlesFrom.

(** X20: the service never makes up a title: after every sequence of calls
    on a fresh service, the title of every stored record is one that a
    create or an update of that sequence was given. *)
Theorem stored_titles_were_supplied (clock : nat -> Date) (ops : list Op) :
  Forall (fun t => Todo.title t ∈ supplied_titles ops)
    (todos (service (run clock ops init).2)).
Proof.
  apply (run_titles_from clock (fun s => s ∈ supplied_titles ops));
    [|constructor].
  by apply Forall_forall.
Qed.
